(** * Local database provider of Clowder: a shallow embedding

    Source: [controllers/cloud.redhat.com/providers/localdb.go].

    The provider creates, for one ClowdApp, a PostgreSQL deployment, the
    service in front of it and the volume claim behind it.  This file
    embeds the three object builders ([makeLocalDB], [makeLocalService],
    [makeLocalPVC]) and the orchestration ([CreateDatabase], [Configure])
    and proves their properties.

    Conventions.
    - Go structs are records, one field per Go field that the provider
      reads or writes, plus a few neighbours the provider leaves alone, so
      that "in place" updates of a fetched object are visible.
    - Go pointers that may be nil are [option]s.
    - [map[string]string] is [gmap string string]; the nil map and the
      empty map read the same and are both [∅].
    - [int32]/[int] fields are [Z]; every constant involved is far below
      the wrap-around bound, which is therefore never reached.
    - The cluster behind [db.Client], the random source behind
      [utils.RandString] and the ClowdApp behind the [*crd.ClowdApp]
      pointer live in one explicit state, threaded by a small state and
      error monad. *)

From stdpp Require Import base gmap strings list fin_maps.
From Stdlib Require Import ZArith Ascii String.

Local Open Scope Z_scope.
Local Open Scope string_scope.

(** ** Kubernetes data, as far as the provider touches it *)

(** [types.NamespacedName] *)
Record NamespacedName := mkNN {
  nn_Name : string;
  nn_Namespace : string
}.

(** [metav1.OwnerReference], reduced to what identifies the owner. *)
Record OwnerReference := mkOwnerRef {
  or_Kind : string;
  or_Name : string
}.

(** [metav1.ObjectMeta] *)
Record ObjectMeta := mkMeta {
  om_Name : string;
  om_Namespace : string;
  om_Labels : gmap string string;
  om_OwnerReferences : list OwnerReference
}.

Definition zeroObjectMeta : ObjectMeta := mkMeta "" "" ∅ [].

(** [crd.ClowdApp]: the object metadata the provider reads ([Name],
    [Namespace], labels) and [Spec.Database.Name]. *)
Record ClowdApp := mkApp {
  app_Name : string;
  app_Namespace : string;
  app_Labels : gmap string string;
  app_Spec_Database_Name : string
}.

(** [config.DatabaseConfig] *)
Record DatabaseConfig := mkDatabaseConfig {
  cfg_Hostname : string;
  cfg_Port : Z;
  cfg_Username : string;
  cfg_Password : string;
  cfg_PgPass : string;
  cfg_Name : string
}.

(** [config.AppConfig]; [Database] is a [*config.DatabaseConfig]. *)
Record AppConfig := mkAppConfig {
  ac_Database : option DatabaseConfig
}.

(** [core.EnvVar] *)
Record EnvVar := mkEnvVar { ev_Name : string; ev_Value : string }.

(** [core.ContainerPort] *)
Record ContainerPort := mkContainerPort {
  cp_Name : string;
  cp_ContainerPort : Z
}.

(** [core.Handler] with its [Exec] action; nil is [None]. *)
Record Handler := mkHandler { h_Exec_Command : option (list string) }.

(** [core.Probe] *)
Record Probe := mkProbe {
  pr_Handler : Handler;
  pr_InitialDelaySeconds : Z;
  pr_TimeoutSeconds : Z
}.

(** [core.VolumeMount] *)
Record VolumeMount := mkVolumeMount {
  vm_Name : string;
  vm_MountPath : string
}.

(** [core.Container] *)
Record Container := mkContainer {
  c_Name : string;
  c_Image : string;
  c_Env : list EnvVar;
  c_LivenessProbe : option Probe;
  c_ReadinessProbe : option Probe;
  c_Ports : list ContainerPort;
  c_VolumeMounts : list VolumeMount
}.

(** [core.Volume]; the volume source is the claim name of its
    [PersistentVolumeClaim] pointer, [None] when the pointer is nil. *)
Record Volume := mkVolume {
  vol_Name : string;
  vol_PersistentVolumeClaim_ClaimName : option string
}.

(** [core.PodSpec] *)
Record PodSpec := mkPodSpec {
  ps_Volumes : list Volume;
  ps_ImagePullSecrets : list string;
  ps_Containers : list Container;
  ps_ServiceAccountName : string
}.

(** [core.PodTemplateSpec] *)
Record PodTemplateSpec := mkPodTemplateSpec {
  tpl_ObjectMeta : ObjectMeta;
  tpl_Spec : PodSpec
}.

(** [apps.DeploymentSpec]; [Replicas] is [*int32], [Selector] is
    [*metav1.LabelSelector] with its [MatchLabels]. *)
Record DeploymentSpec := mkDeploymentSpec {
  ds_Replicas : option Z;
  ds_Selector : option (gmap string string);
  ds_Template : PodTemplateSpec;
  ds_MinReadySeconds : Z
}.

(** [apps.Deployment] *)
Record Deployment := mkDeployment {
  dd_ObjectMeta : ObjectMeta;
  dd_Spec : DeploymentSpec
}.

Definition zeroDeployment : Deployment :=
  mkDeployment zeroObjectMeta
    (mkDeploymentSpec None None
       (mkPodTemplateSpec zeroObjectMeta (mkPodSpec [] [] [] "")) 0).

(** [core.ServicePort] *)
Record ServicePort := mkServicePort {
  sp_Name : string;
  sp_Port : Z;
  sp_Protocol : string
}.

(** [core.ServiceSpec] *)
Record ServiceSpec := mkServiceSpec {
  ss_Selector : gmap string string;
  ss_Ports : list ServicePort;
  ss_ClusterIP : string
}.

(** [core.Service] *)
Record Service := mkService {
  s_ObjectMeta : ObjectMeta;
  s_Spec : ServiceSpec
}.

Definition zeroService : Service :=
  mkService zeroObjectMeta (mkServiceSpec ∅ [] "").

(** [core.PersistentVolumeAccessMode] *)
Inductive PersistentVolumeAccessMode :=
  | ReadWriteOnce
  | ReadOnlyMany
  | ReadWriteMany.

(** [resource.Quantity]: the amount in base units and the family of the
    suffix it was written with. *)
Inductive Format := BinarySI | DecimalSI.

Record Quantity := mkQuantity {
  q_value : Z;
  q_format : Format
}.

(** [core.ResourceRequirements]; a [core.ResourceList] maps resource names
    to quantities. *)
Record ResourceRequirements := mkResourceRequirements {
  rr_Limits : gmap string Quantity;
  rr_Requests : gmap string Quantity
}.

(** [core.PersistentVolumeClaimSpec] *)
Record PersistentVolumeClaimSpec := mkPVCSpec {
  pvcs_AccessModes : list PersistentVolumeAccessMode;
  pvcs_Resources : ResourceRequirements;
  pvcs_VolumeName : string
}.

(** [core.PersistentVolumeClaim] *)
Record PersistentVolumeClaim := mkPVC {
  pvc_ObjectMeta : ObjectMeta;
  pvc_Spec : PersistentVolumeClaimSpec
}.

Definition zeroPersistentVolumeClaim : PersistentVolumeClaim :=
  mkPVC zeroObjectMeta (mkPVCSpec [] (mkResourceRequirements ∅ ∅) "").

(** [core.ResourceStorage] *)
Definition ResourceStorage : string := "storage".

(** ** [resource.MustParse]

    The Kubernetes quantity syntax, restricted to an unsigned decimal
    integer followed by an optional binary or decimal SI suffix, which
    covers the literal the provider parses. *)

Definition digit_of (a : ascii) : option Z :=
  let n := Z.of_nat (nat_of_ascii a) in
  if bool_decide (48 ≤ n ≤ 57)%Z then Some (n - 48) else None.

(** Splits a string into the value of its leading digits, how many there
    were, and the rest. *)
Fixpoint read_digits (acc : Z) (seen : nat) (s : string) : Z * nat * string :=
  match s with
  | String a rest =>
      match digit_of a with
      | Some d => read_digits (10 * acc + d) (S seen) rest
      | None => (acc, seen, s)
      end
  | EmptyString => (acc, seen, s)
  end.

Definition suffix_scale (s : string) : option (Z * Format) :=
  if bool_decide (s = "") then Some (1, DecimalSI)
  else if bool_decide (s = "Ki") then Some (2 ^ 10, BinarySI)
  else if bool_decide (s = "Mi") then Some (2 ^ 20, BinarySI)
  else if bool_decide (s = "Gi") then Some (2 ^ 30, BinarySI)
  else if bool_decide (s = "Ti") then Some (2 ^ 40, BinarySI)
  else if bool_decide (s = "Pi") then Some (2 ^ 50, BinarySI)
  else if bool_decide (s = "Ei") then Some (2 ^ 60, BinarySI)
  else if bool_decide (s = "k") then Some (10 ^ 3, DecimalSI)
  else if bool_decide (s = "M") then Some (10 ^ 6, DecimalSI)
  else if bool_decide (s = "G") then Some (10 ^ 9, DecimalSI)
  else if bool_decide (s = "T") then Some (10 ^ 12, DecimalSI)
  else if bool_decide (s = "P") then Some (10 ^ 15, DecimalSI)
  else if bool_decide (s = "E") then Some (10 ^ 18, DecimalSI)
  else None.

Definition ParseQuantity (s : string) : option Quantity :=
  let '(n, seen, rest) := read_digits 0 0%nat s in
  match seen with
  | O => None
  | S _ =>
      match suffix_scale rest with
      | Some (scale, fmt) => Some (mkQuantity (n * scale) fmt)
      | None => None
      end
  end.

(** [MustParse] panics where [ParseQuantity] fails; the panic is the zero
    quantity here, and [MustParse_1Gi] below shows that the one call of the
    provider does not reach it. *)
Definition MustParse (s : string) : Quantity :=
  default (mkQuantity 0 DecimalSI) (ParseQuantity s).

(** ** The ClowdApp helpers the builders call *)

(** Options of [SetObjectMeta]: [crd.Name], [crd.Namespace], [crd.Labels]. *)
Inductive omfunc :=
  | crd_Name (name : string)
  | crd_Namespace (namespace : string)
  | crd_Labels (labels : gmap string string).

Definition apply_omfunc (m : ObjectMeta) (opt : omfunc) : ObjectMeta :=
  match opt with
  | crd_Name name =>
      mkMeta name (om_Namespace m) (om_Labels m) (om_OwnerReferences m)
  | crd_Namespace namespace =>
      mkMeta (om_Name m) namespace (om_Labels m) (om_OwnerReferences m)
  | crd_Labels labels =>
      mkMeta (om_Name m) (om_Namespace m) labels (om_OwnerReferences m)
  end.

(** Modelled from the spec: [GetLabels] is a method of [crd.ClowdApp],
    declared outside the provider's file.  The spec describes the label
    mapping it hands out as the owner descriptor's own mapping ("the source
    mutates the owner descriptor's label mapping in place"): the result is
    the descriptor's map itself, not a copy.  The map is taken to be
    allocated: every builder writes to it. *)
Definition GetLabels (pp : ClowdApp) : gmap string string := app_Labels pp.

(** A write [labels[k] = v] through the map obtained from [GetLabels]
    lands in the descriptor, because a Go map value is a reference. *)
Definition assign_label (k v : string) (pp : ClowdApp) : ClowdApp :=
  mkApp (app_Name pp) (app_Namespace pp)
        (<[k := v]> (app_Labels pp)) (app_Spec_Database_Name pp).

Definition MakeOwnerReference (pp : ClowdApp) : OwnerReference :=
  mkOwnerRef "ClowdApp" (app_Name pp).

(** Modelled from the spec: [SetObjectMeta] is a method of [crd.ClowdApp],
    declared outside the provider's file: the "stamp owner metadata and
    labels onto a resource" collaborator.  It stamps the owner reference
    and the owner's namespace (every resource lives "in the owning
    application's namespace"), then applies the given options (name,
    namespace where given, labels) in order. *)
Definition SetObjectMeta (pp : ClowdApp) (m : ObjectMeta) (opts : list omfunc)
  : ObjectMeta :=
  foldl apply_omfunc
    (mkMeta (om_Name m) (app_Namespace pp) (om_Labels m) [MakeOwnerReference pp])
    opts.

(** ** The three builders *)

Definition probeCommand : list string :=
  ["psql"; "-U"; "$(POSTGRESQL_USER)"; "-d"; "$(POSTGRESQL_DATABASE)";
   "-c"; "SELECT 1"].

(** [makeLocalDB]: fills the deployment [dd] in place.  The result carries
    the deployment and the ClowdApp after the call, since the builder
    writes into the map it got from [GetLabels].

    The first two statements, [labels := pp.GetLabels()] and
    [labels["service"] = "db"], are the first two lines below: [labels]
    is the map of [pp], so the write changes [pp], and every later use of
    [labels] reads the map of the changed [pp]. *)
Definition makeLocalDB (dd : Deployment) (nn : NamespacedName) (pp : ClowdApp)
    (cfg : DatabaseConfig) (image : string) : Deployment * ClowdApp :=
  let pp := assign_label "service" "db" pp in
  let labels := GetLabels pp in
  let meta := SetObjectMeta pp (dd_ObjectMeta dd)
                [crd_Name (nn_Name nn); crd_Labels labels] in
  let volumes := [mkVolume (nn_Name nn) (Some (nn_Name nn))] in
  let envVars :=
    [mkEnvVar "POSTGRESQL_USER" (cfg_Username cfg);
     mkEnvVar "POSTGRESQL_PASSWORD" (cfg_Password cfg);
     mkEnvVar "PGPASSWORD" (cfg_PgPass cfg);
     mkEnvVar "POSTGRESQL_DATABASE" (app_Spec_Database_Name pp)] in
  let ports := [mkContainerPort "database" 5432] in
  let probeHandler := mkHandler (Some probeCommand) in
  let livenessProbe := mkProbe probeHandler 15 2 in
  let readinessProbe := mkProbe probeHandler 45 2 in
  let c := mkContainer (nn_Name nn) image envVars
             (Some livenessProbe) (Some readinessProbe) ports
             [mkVolumeMount (nn_Name nn) "/var/lib/pgsql/data"] in
  let old := dd_Spec dd in
  let oldT := ds_Template old in
  let oldTM := tpl_ObjectMeta oldT in
  let template :=
    mkPodTemplateSpec
      (mkMeta (om_Name oldTM) (om_Namespace oldTM) labels
              (om_OwnerReferences oldTM))
      (mkPodSpec volumes ["quay-cloudservices-pull"] [c]
                 (ps_ServiceAccountName (tpl_Spec oldT))) in
  (mkDeployment meta
     (mkDeploymentSpec (Some 1) (Some labels) template
                       (ds_MinReadySeconds old)),
   pp).

(** [makeLocalService] *)
Definition makeLocalService (s : Service) (nn : NamespacedName) (pp : ClowdApp)
  : Service * ClowdApp :=
  let servicePorts := [mkServicePort "database" 5432 "TCP"] in
  let pp := assign_label "service" "db" pp in
  let labels := GetLabels pp in
  let meta := SetObjectMeta pp (s_ObjectMeta s)
                [crd_Name (nn_Name nn); crd_Namespace (nn_Namespace nn);
                 crd_Labels labels] in
  (mkService meta
     (mkServiceSpec labels servicePorts (ss_ClusterIP (s_Spec s))),
   pp).

(** [makeLocalPVC] *)
Definition makeLocalPVC (pvc : PersistentVolumeClaim) (nn : NamespacedName)
    (pp : ClowdApp) : PersistentVolumeClaim * ClowdApp :=
  let pp := assign_label "service" "db" pp in
  let labels := GetLabels pp in
  let meta := SetObjectMeta pp (pvc_ObjectMeta pvc)
                [crd_Name (nn_Name nn); crd_Labels labels] in
  (mkPVC meta
     (mkPVCSpec [ReadWriteOnce]
        (mkResourceRequirements ∅
           {[ ResourceStorage := MustParse "1Gi" ]})
        (pvcs_VolumeName (pvc_Spec pvc))),
   pp).

(** ** The cluster, the random source and the ClowdApp: the state *)

Inductive Kind := KDeployment | KService | KPersistentVolumeClaim.

#[global] Instance Kind_eq_dec : EqDecision Kind.
Proof. solve_decision. Defined.

Definition Kind_to_nat (k : Kind) : nat :=
  match k with
  | KDeployment => 0
  | KService => 1
  | KPersistentVolumeClaim => 2
  end%nat.

Definition Kind_of_nat (n : nat) : Kind :=
  match n with
  | O => KDeployment
  | S O => KService
  | _ => KPersistentVolumeClaim
  end.

#[global] Instance Kind_countable : Countable Kind.
Proof.
  apply (inj_countable' Kind_to_nat Kind_of_nat).
  intros k. destruct k; reflexivity.
Defined.

(** What the cluster holds under a kind and a namespaced name. *)
Inductive Stored :=
  | StoredDeployment (d : Deployment)
  | StoredService (s : Service)
  | StoredPersistentVolumeClaim (p : PersistentVolumeClaim).

(** [runtime.Object]: what the client needs of an object to fetch, create
    and update it. *)
Class Object (A : Type) := {
  obj_kind : Kind;
  obj_meta : A → ObjectMeta;
  obj_encode : A → Stored;
  obj_decode : Stored → option A
}.

#[global] Instance Deployment_Object : Object Deployment := {
  obj_kind := KDeployment;
  obj_meta := dd_ObjectMeta;
  obj_encode := StoredDeployment;
  obj_decode o := match o with StoredDeployment d => Some d | _ => None end
}.

#[global] Instance Service_Object : Object Service := {
  obj_kind := KService;
  obj_meta := s_ObjectMeta;
  obj_encode := StoredService;
  obj_decode o := match o with StoredService s => Some s | _ => None end
}.

#[global] Instance PersistentVolumeClaim_Object : Object PersistentVolumeClaim := {
  obj_kind := KPersistentVolumeClaim;
  obj_meta := pvc_ObjectMeta;
  obj_encode := StoredPersistentVolumeClaim;
  obj_decode o :=
    match o with StoredPersistentVolumeClaim p => Some p | _ => None end
}.

(** Go's [error] values that occur. *)
Inductive error :=
  | ErrNotFound                  (** [k8serr.IsNotFound] holds *)
  | ErrAlreadyExists             (** create of an object that is there *)
  | ErrDecode                    (** the stored object has another kind *)
  | ErrStore (reason : string)   (** the round trip itself failed *)
  | Errorf (msg : string).       (** [fmt.Errorf] *)

(** What the provider does to the outside, in order; a call to the client
    is recorded with the Go [error] it returned ([None] is nil). *)
Inductive Event :=
  | EvGet (k : Kind) (name namespace : string) (err : option error)
  | EvCreate (k : Kind) (name namespace : string) (err : option error)
  | EvUpdate (k : Kind) (name namespace : string) (err : option error)
  | EvRandString (n : nat).

(** - [w_store]: the objects of the cluster;
    - [w_faults i]: whether the [i]-th round trip to the cluster fails for
      a reason of its own (network, permission), and with what;
    - [w_trips]: round trips made so far;
    - [w_rand], [w_drawn]: the random source and how much of it is used;
    - [w_log]: the trace of calls, oldest first;
    - [w_app]: the ClowdApp the [app] pointer refers to. *)
Record World := mkWorld {
  w_store : gmap (Kind * (string * string)) Stored;
  w_faults : nat → option string;
  w_trips : nat;
  w_rand : nat → nat;
  w_drawn : nat;
  w_log : list Event;
  w_app : ClowdApp
}.

Inductive result (A : Type) :=
  | Ok (a : A)
  | Err (e : error).
Arguments Ok {A} a.
Arguments Err {A} e.

(** State and error monad: a Go function that may [return err] early. *)
Definition M (A : Type) : Type := World → result A * World.

#[global] Instance M_ret : MRet M := λ A a w, (Ok a, w).

#[global] Instance M_bind : MBind M := λ A B f m w,
  match m w with
  | (Ok a, w') => f a w'
  | (Err e, w') => (Err e, w')
  end.

(** [return err] *)
Definition fail {A} (e : error) : M A := λ w, (Err e, w).

(** [if err != nil { return err }] *)
Definition check (err : option error) : M unit :=
  match err with
  | Some e => fail e
  | None => mret tt
  end.

Definition set_store (st : gmap (Kind * (string * string)) Stored) (w : World)
  : World :=
  mkWorld st (w_faults w) (w_trips w) (w_rand w) (w_drawn w) (w_log w) (w_app w).

Definition set_app (pp : ClowdApp) (w : World) : World :=
  mkWorld (w_store w) (w_faults w) (w_trips w) (w_rand w) (w_drawn w)
          (w_log w) pp.

(** One round trip: counts it and records the call. *)
Definition round_trip (e : Event) (w : World) : World :=
  mkWorld (w_store w) (w_faults w) (S (w_trips w)) (w_rand w) (w_drawn w)
          (w_log w ++ [e]) (w_app w).

Definition draw (n : nat) (w : World) : World :=
  mkWorld (w_store w) (w_faults w) (w_trips w) (w_rand w) (w_drawn w + n)%nat
          (w_log w ++ [EvRandString n]) (w_app w).

(** Runs a builder on the ClowdApp behind the pointer. *)
Definition with_app {A} (f : ClowdApp → A * ClowdApp) : M A := λ w,
  let r := f (w_app w) in (Ok r.1, set_app r.2 w).

Definition the_app : M ClowdApp := λ w, (Ok (w_app w), w).

(** *** The client

    [Get], [Create] and [Update] of the controller-runtime client.  Each
    returns its Go [error] as a value ([None] is nil); none of them returns
    early by itself. *)

Definition store_key (k : Kind) (name namespace : string)
  : Kind * (string * string) := (k, (namespace, name)).

Definition Client_Get `{Object A} (nn : NamespacedName) (into : A)
  : M (A * option error) := λ w,
  let r :=
    match w_faults w (w_trips w) with
    | Some reason => (into, Some (ErrStore reason))
    | None =>
        match w_store w !! store_key obj_kind (nn_Name nn) (nn_Namespace nn) with
        | Some o =>
            match obj_decode o with
            | Some a => (a, None)
            | None => (into, Some ErrDecode)
            end
        | None => (into, Some ErrNotFound)
        end
    end in
  (Ok r, round_trip (EvGet obj_kind (nn_Name nn) (nn_Namespace nn) r.2) w).

Definition Client_Create `{Object A} (obj : A) : M (option error) := λ w,
  let name := om_Name (obj_meta obj) in
  let namespace := om_Namespace (obj_meta obj) in
  match w_faults w (w_trips w) with
  | Some reason =>
      let err := Some (ErrStore reason) in
      (Ok err, round_trip (EvCreate obj_kind name namespace err) w)
  | None =>
      match w_store w !! store_key obj_kind name namespace with
      | Some _ =>
          let err := Some ErrAlreadyExists in
          (Ok err, round_trip (EvCreate obj_kind name namespace err) w)
      | None =>
          (Ok None,
           set_store (<[store_key obj_kind name namespace := obj_encode obj]>
                        (w_store w))
             (round_trip (EvCreate obj_kind name namespace None) w))
      end
  end.

Definition Client_Update `{Object A} (obj : A) : M (option error) := λ w,
  let name := om_Name (obj_meta obj) in
  let namespace := om_Namespace (obj_meta obj) in
  match w_faults w (w_trips w) with
  | Some reason =>
      let err := Some (ErrStore reason) in
      (Ok err, round_trip (EvUpdate obj_kind name namespace err) w)
  | None =>
      match w_store w !! store_key obj_kind name namespace with
      | Some _ =>
          (Ok None,
           set_store (<[store_key obj_kind name namespace := obj_encode obj]>
                        (w_store w))
             (round_trip (EvUpdate obj_kind name namespace None) w))
      | None =>
          let err := Some ErrNotFound in
          (Ok err, round_trip (EvUpdate obj_kind name namespace err) w)
      end
  end.

(** *** [utils.Updater], [utils.UpdateOrErr] *)

(** Modelled from the spec: [utils.UpdateOrErr] is declared outside the
    provider's file: the "existence resolver".  A fetch that succeeded
    gives a handle that updates in place (existed, [true]); a fetch that
    failed with not-found gives a handle that creates ([false]); any other
    fetch error is propagated. *)
Definition UpdateOrErr (err : option error) : bool * option error :=
  match err with
  | None => (true, None)
  | Some ErrNotFound => (false, None)
  | Some e => (false, Some e)
  end.

(** Modelled from the spec: [Updater.Apply] is declared outside the
    provider's file: "create if handle indicates absent, update-in-place
    otherwise". *)
Definition Updater_Apply `{Object A} (u : bool) (obj : A) : M (option error) :=
  if u then Client_Update obj else Client_Create obj.

(** *** [utils.RandString] *)

Definition letterBytes : string :=
  "abcdefghijklmnopqrstuvwxyzABCDEFGHIJKLMNOPQRSTUVWXYZ0123456789".

Definition letter (i : nat) : ascii :=
  default "a"%char (String.get (i mod String.length letterBytes) letterBytes).

Fixpoint rand_letters (src : nat → nat) (from n : nat) : string :=
  match n with
  | O => ""
  | S n' => String (letter (src from)) (rand_letters src (S from) n')
  end.

(** Modelled from the spec: [utils.RandString] is declared outside the
    provider's file: "[generate(length) -> string] producing a string of
    the requested length drawn from a fixed alphanumeric alphabet".  Each
    letter consumes one draw of the random source. *)
Definition RandString (n : nat) : M string := λ w,
  (Ok (rand_letters (w_rand w) (w_drawn w) n), draw n w).

(** ** The provider *)

(** [Provider]: [Client] and [Ctx] are the state; of [Env] the provider
    reads [Spec.Database.Image]. *)
Record Provider := mkProvider {
  p_Env_Spec_Database_Image : string
}.

(** [localDbProvider]; [Config] is a [*config.DatabaseConfig]. *)
Record localDbProvider := mkLocalDbProvider {
  db_Provider : Provider;
  db_Config : option DatabaseConfig
}.

(** [Configure]: [c.Database = db.Config]. *)
Definition Configure (db : localDbProvider) (c : AppConfig) : AppConfig :=
  mkAppConfig (db_Config db).

(** [NewLocalDBProvider]: [&localDbProvider{Provider: *p}]; the [Config]
    field is left at its zero value, nil. *)
Definition NewLocalDBProvider (p : Provider) : localDbProvider * option error :=
  (mkLocalDbProvider p None, None).

(** The [types.NamespacedName] the provider derives from the ClowdApp. *)
Definition namespacedName (app : ClowdApp) : NamespacedName :=
  mkNN (app_Name app +:+ "-db") (app_Namespace app).

(** The [config.DatabaseConfig] literal of [CreateDatabase]; its three
    [RandString] calls are made in the order of the fields. *)
Definition generateConfig (nn : NamespacedName) (app : ClowdApp)
  : M DatabaseConfig :=
  username ← RandString 16;
  password ← RandString 16;
  pgPass ← RandString 16;
  mret (mkDatabaseConfig
          (nn_Name nn +:+ "." +:+ nn_Namespace nn +:+ ".svc")
          5432 username password pgPass (app_Spec_Database_Name app)).

(** [CreateDatabase].  The receiver [db] is only read: no statement of the
    function assigns one of its fields. *)
Definition CreateDatabase (db : localDbProvider) : M unit :=
  app ← the_app;
  let nn := namespacedName app in
  '(dd, err) ← Client_Get nn zeroDeployment;
  let '(exists_, err) := UpdateOrErr err in
  _ ← check err;
  if (exists_ : bool) then fail (Errorf "DB has already been created") else
  cfg ← generateConfig nn app;
  dd ← with_app (λ pp, makeLocalDB dd nn pp cfg
                         (p_Env_Spec_Database_Image (db_Provider db)));
  err ← Updater_Apply exists_ dd;
  _ ← check err;
  '(s, err) ← Client_Get nn zeroService;
  let '(update, err) := UpdateOrErr err in
  _ ← check err;
  s ← with_app (makeLocalService s nn);
  err ← Updater_Apply update s;
  _ ← check err;
  '(pvc, err) ← Client_Get nn zeroPersistentVolumeClaim;
  let '(update, err) := UpdateOrErr err in
  _ ← check err;
  pvc ← with_app (makeLocalPVC pvc nn);
  err ← Updater_Apply update pvc;
  _ ← check err;
  mret tt.

(** ** Vocabulary of the statements *)

(** The calls a run added to the log: the log of [w'] without the log the
    run started from. *)
Definition trace (w w' : World) : list Event :=
  drop (List.length (w_log w)) (w_log w').

(** The lengths asked of [RandString], in call order. *)
Definition rand_calls (tr : list Event) : list nat :=
  omap (λ e, match e with EvRandString n => Some n | _ => None end) tr.

Inductive Op := OpFetch | OpApply.

(** The round trip behind an event: a create and an update are both the
    apply of the resolved handle. *)
Definition store_op (e : Event) : option (Op * Kind) :=
  match e with
  | EvGet k _ _ _ => Some (OpFetch, k)
  | EvCreate k _ _ _ | EvUpdate k _ _ _ => Some (OpApply, k)
  | EvRandString _ => None
  end.

Definition store_ops (tr : list Event) : list (Op * Kind) := omap store_op tr.

(** The identity an event addresses. *)
Definition addressed (e : Event) : option (string * string) :=
  match e with
  | EvGet _ n ns _ | EvCreate _ n ns _ | EvUpdate _ n ns _ => Some (n, ns)
  | EvRandString _ => None
  end.

(** Workload, then endpoint, then storage; each fetched, then applied. *)
Definition plan : list (Op * Kind) :=
  [(OpFetch, KDeployment); (OpApply, KDeployment);
   (OpFetch, KService); (OpApply, KService);
   (OpFetch, KPersistentVolumeClaim); (OpApply, KPersistentVolumeClaim)].

(** The error with which a call makes [CreateDatabase] give up: any error
    of an apply, and any error of a fetch but not-found. *)
Definition failure (e : Event) : option error :=
  match e with
  | EvGet _ _ _ (Some ErrNotFound) => None
  | EvGet _ _ _ err | EvCreate _ _ _ err | EvUpdate _ _ _ err => err
  | EvRandString _ => None
  end.

Definition same_kind (k k' : Kind) : bool :=
  match k, k' with
  | KDeployment, KDeployment
  | KService, KService
  | KPersistentVolumeClaim, KPersistentVolumeClaim => true
  | _, _ => false
  end.

(** The errors the applies of kind [k] returned, in call order. *)
Definition applies (k : Kind) (tr : list Event) : list (option error) :=
  omap (λ e, match e with
             | EvCreate k' _ _ err | EvUpdate k' _ _ err =>
                 if same_kind k' k then Some err else None
             | _ => None
             end) tr.

(** What a fetch that did not fail reports, and the apply that follows. *)
Definition fetched (existed : bool) : option error :=
  if existed then None else Some ErrNotFound.

Definition applied (k : Kind) (n ns : string) (existed : bool)
    (err : option error) : Event :=
  if existed then EvUpdate k n ns err else EvCreate k n ns err.

(** The config a run generates when it starts in [w], and the deployment
    it builds from it. *)
Definition generated (w : World) : DatabaseConfig :=
  let nn := namespacedName (w_app w) in
  let d := w_drawn w in
  mkDatabaseConfig
    (nn_Name nn +:+ "." +:+ nn_Namespace nn +:+ ".svc") 5432
    (rand_letters (w_rand w) d 16)
    (rand_letters (w_rand w) (d + 16) 16)
    (rand_letters (w_rand w) (d + 16 + 16) 16)
    (app_Spec_Database_Name (w_app w)).

Definition workload (db : localDbProvider) (w : World) : Deployment :=
  (makeLocalDB zeroDeployment (namespacedName (w_app w)) (w_app w)
     (generated w) (p_Env_Spec_Database_Image (db_Provider db))).1.

(** The shapes a run of [CreateDatabase] can take: its result and its
    trace, for the identity [(n, ns)]. *)
Section shapes.
Variables n ns : string.

Definition opening : list Event :=
  [EvGet KDeployment n ns (Some ErrNotFound);
   EvRandString 16; EvRandString 16; EvRandString 16].

Inductive run_shape : result unit → list Event → Prop :=
  | fetch_workload_failed e :
      e ≠ ErrNotFound →
      run_shape (Err e) [EvGet KDeployment n ns (Some e)]
  | already_created :
      run_shape (Err (Errorf "DB has already been created"))
                [EvGet KDeployment n ns None]
  | apply_workload_failed e :
      run_shape (Err e) (opening ++ [EvCreate KDeployment n ns (Some e)])
  | fetch_endpoint_failed e :
      e ≠ ErrNotFound →
      run_shape (Err e)
        (opening ++ [EvCreate KDeployment n ns None;
                     EvGet KService n ns (Some e)])
  | apply_endpoint_failed xs e :
      run_shape (Err e)
        (opening ++ [EvCreate KDeployment n ns None;
                     EvGet KService n ns (fetched xs);
                     applied KService n ns xs (Some e)])
  | fetch_storage_failed xs e :
      e ≠ ErrNotFound →
      run_shape (Err e)
        (opening ++ [EvCreate KDeployment n ns None;
                     EvGet KService n ns (fetched xs);
                     applied KService n ns xs None;
                     EvGet KPersistentVolumeClaim n ns (Some e)])
  | apply_storage_failed xs xp e :
      run_shape (Err e)
        (opening ++ [EvCreate KDeployment n ns None;
                     EvGet KService n ns (fetched xs);
                     applied KService n ns xs None;
                     EvGet KPersistentVolumeClaim n ns (fetched xp);
                     applied KPersistentVolumeClaim n ns xp (Some e)])
  | all_applied xs xp :
      run_shape (Ok tt)
        (opening ++ [EvCreate KDeployment n ns None;
                     EvGet KService n ns (fetched xs);
                     applied KService n ns xs None;
                     EvGet KPersistentVolumeClaim n ns (fetched xp);
                     applied KPersistentVolumeClaim n ns xp None]).
End shapes.

(** What [CreateDatabase_run] below proves of a run [r] started in [w]:
    its shape, that the log only grows, that a run of one call changes
    nothing, that a created workload is in the store, and that a run
    without error leaves a claim under the identity. *)
Definition run_facts (db : localDbProvider) (w : World)
    (r : result unit * World) : Prop :=
  let nn := namespacedName (w_app w) in
  run_shape (nn_Name nn) (nn_Namespace nn) r.1 (trace w r.2)
  ∧ w_log r.2 = (w_log w ++ trace w r.2)%list
  ∧ (List.length (trace w r.2) = 1%nat →
     w_store r.2 = w_store w ∧ w_app r.2 = w_app w ∧ w_drawn r.2 = w_drawn w)
  ∧ (EvCreate KDeployment (nn_Name nn) (nn_Namespace nn) None ∈ trace w r.2 →
     w_store r.2 !! store_key KDeployment (nn_Name nn) (nn_Namespace nn)
     = Some (StoredDeployment (workload db w)))
  ∧ (r.1 = Ok tt →
     ∃ claim,
       w_store r.2
         !! store_key KPersistentVolumeClaim (nn_Name nn) (nn_Namespace nn)
       = Some (StoredPersistentVolumeClaim claim)
       ∧ om_Name (pvc_ObjectMeta claim) = nn_Name nn
       ∧ om_Namespace (pvc_ObjectMeta claim) = nn_Namespace nn).

(** ** Sample inputs *)

(** The scenario of the spec: app [orders] in namespace [prod], database
    [orders_db], image [postgres:13], an empty cluster without faults. *)
Definition orders : ClowdApp := mkApp "orders" "prod" ∅ "orders_db".

Definition no_faults : nat → option string := λ _, None.

Definition fresh_cluster : World :=
  mkWorld ∅ no_faults 0 (λ i, i) 0 [] orders.

Definition postgres13 : localDbProvider :=
  (NewLocalDBProvider (mkProvider "postgres:13")).1.

(** The same cluster once [CreateDatabase] has run on it. *)
Definition provisioned_cluster : World :=
  (CreateDatabase postgres13 fresh_cluster).2.

(** A cluster whose fourth round trip, the apply of the service, fails. *)
Definition flaky_cluster : World :=
  mkWorld ∅ (λ i, if bool_decide (i = 3%nat) then Some "timeout" else None)
          0 (λ i, i) 0 [] orders.

(** A cluster that cannot be reached at all. *)
Definition unreachable_cluster : World :=
  mkWorld ∅ (λ _, Some "connection refused") 0 (λ i, i) 0 [] orders.

(** ** Vocabulary of the further statements *)

(** The ClowdApp of [w] once a builder has run on it. *)
Definition labelled (w : World) : ClowdApp :=
  assign_label "service" "db" (w_app w).

(** What the second and the third fetch of a run started in [w] fill in:
    the service and the claim stored under the identity, and the zero
    value where there is none. *)
Definition found_service (w : World) : Service :=
  let nn := namespacedName (w_app w) in
  match w_store w !! store_key KService (nn_Name nn) (nn_Namespace nn) with
  | Some (StoredService s) => s
  | _ => zeroService
  end.

Definition found_claim (w : World) : PersistentVolumeClaim :=
  let nn := namespacedName (w_app w) in
  match w_store w
          !! store_key KPersistentVolumeClaim (nn_Name nn) (nn_Namespace nn)
  with
  | Some (StoredPersistentVolumeClaim p) => p
  | _ => zeroPersistentVolumeClaim
  end.

(** The service and the claim a run started in [w] builds. *)
Definition endpoint (w : World) : Service :=
  (makeLocalService (found_service w) (namespacedName (w_app w))
                    (labelled w)).1.

Definition storage (w : World) : PersistentVolumeClaim :=
  (makeLocalPVC (found_claim w) (namespacedName (w_app w)) (labelled w)).1.

(** Whether the trace holds one apply of kind [k], which returned nil. *)
Definition succeeded (k : Kind) (tr : list Event) : bool :=
  match applies k tr with
  | [None] => true
  | _ => false
  end.

(** The store a run with trace [tr] leaves: the store it started from,
    with the object of every apply that succeeded put under the identity. *)
Definition store_after (db : localDbProvider) (w : World) (tr : list Event)
  : gmap (Kind * (string * string)) Stored :=
  let nn := namespacedName (w_app w) in
  let key k := store_key k (nn_Name nn) (nn_Namespace nn) in
  let st1 :=
    if succeeded KDeployment tr
    then <[key KDeployment := StoredDeployment (workload db w)]> (w_store w)
    else w_store w in
  let st2 :=
    if succeeded KService tr
    then <[key KService := StoredService (endpoint w)]> st1
    else st1 in
  if succeeded KPersistentVolumeClaim tr
  then <[key KPersistentVolumeClaim := StoredPersistentVolumeClaim (storage w)]>
         st2
  else st2.

(** An apply that failed because of what the run itself had just seen: a
    create of what is there, an update of what is not. *)
Definition self_conflict (e : Event) : bool :=
  match e with
  | EvCreate _ _ _ (Some ErrAlreadyExists) => true
  | EvUpdate _ _ _ (Some ErrNotFound) => true
  | _ => false
  end.

(** What [CreateDatabase_effects] below proves of a run [r] started in
    [w]: the store and the app it leaves, that it leaves the fault oracle
    and the random source alone, and that no apply conflicts with the
    fetch before it. *)
Definition run_effects (db : localDbProvider) (w : World)
    (r : result unit * World) : Prop :=
  w_store r.2 = store_after db w (trace w r.2)
  ∧ w_app r.2
    = match rand_calls (trace w r.2) with
      | [] => w_app w
      | _ => labelled w
      end
  ∧ w_faults r.2 = w_faults w
  ∧ w_rand r.2 = w_rand w
  ∧ Forall (λ e, self_conflict e = false) (trace w r.2).

Definition stored_kind (o : Stored) : Kind :=
  match o with
  | StoredDeployment _ => KDeployment
  | StoredService _ => KService
  | StoredPersistentVolumeClaim _ => KPersistentVolumeClaim
  end.

Definition stored_meta (o : Stored) : ObjectMeta :=
  match o with
  | StoredDeployment d => dd_ObjectMeta d
  | StoredService s => s_ObjectMeta s
  | StoredPersistentVolumeClaim p => pvc_ObjectMeta p
  end.

(** A store keeps every object under its own kind, name and namespace. *)
Definition store_consistent (st : gmap (Kind * (string * string)) Stored)
  : Prop :=
  map_Forall
    (λ key o,
       key = store_key (stored_kind o) (om_Name (stored_meta o))
                       (om_Namespace (stored_meta o)))
    st.

(** The object a run started in [w] applies for kind [k]. *)
Definition built (db : localDbProvider) (w : World) (k : Kind) : Stored :=
  match k with
  | KDeployment => StoredDeployment (workload db w)
  | KService => StoredService (endpoint w)
  | KPersistentVolumeClaim => StoredPersistentVolumeClaim (storage w)
  end.

(** A cluster that already has a service [orders-db], with a cluster IP,
    and a bound claim [orders-db]. *)
Definition adopted_cluster : World :=
  mkWorld
    (<[store_key KService "orders-db" "prod" :=
         StoredService
           (mkService (mkMeta "orders-db" "prod" ∅ [])
                      (mkServiceSpec ∅ [] "10.0.0.7"))]>
       (<[store_key KPersistentVolumeClaim "orders-db" "prod" :=
            StoredPersistentVolumeClaim
              (mkPVC (mkMeta "orders-db" "prod" ∅ [])
                     (mkPVCSpec [] (mkResourceRequirements ∅ ∅) "pv-0001"))]>
          ∅))
    no_faults 0 (λ i, i) 0 [] orders.

(** ** Auxiliary facts *)

Lemma append_cons (a : ascii) (s t : string) :
  String a s +:+ t = String a (s +:+ t).
Proof. reflexivity. Qed.

Lemma length_append (s t : string) :
  String.length (s +:+ t) = (String.length s + String.length t)%nat.
Proof.
  induction s as [|a s IH]; [done|].
  rewrite append_cons. cbn. by rewrite IH.
Qed.

Lemma append_inj_r (t s1 s2 : string) : s1 +:+ t = s2 +:+ t → s1 = s2.
Proof.
  revert s2. induction s1 as [|a s1 IH]; intros [|b s2] Heq.
  - done.
  - apply (f_equal String.length) in Heq.
    rewrite !length_append in Heq. cbn in Heq. lia.
  - apply (f_equal String.length) in Heq.
    rewrite !length_append in Heq. cbn in Heq. lia.
  - rewrite !append_cons in Heq. injection Heq as -> Heq. f_equal. by apply IH.
Qed.

Lemma rand_letters_length (src : nat → nat) (from n : nat) :
  String.length (rand_letters src from n) = n.
Proof.
  revert from. induction n as [|n IH]; intros from; cbn; [done|].
  by rewrite IH.
Qed.

Lemma MustParse_1Gi : ParseQuantity "1Gi" = Some (mkQuantity (2 ^ 30) BinarySI).
Proof. reflexivity. Qed.

(** Where the builders put their object, and what they leave of the app. *)
Section builder_facts.
Context (nn : NamespacedName) (pp : ClowdApp).

Lemma makeLocalDB_name dd cfg image :
  om_Name (dd_ObjectMeta (makeLocalDB dd nn pp cfg image).1) = nn_Name nn.
Proof. reflexivity. Qed.

Lemma makeLocalDB_namespace dd cfg image :
  om_Namespace (dd_ObjectMeta (makeLocalDB dd nn pp cfg image).1)
  = app_Namespace pp.
Proof. reflexivity. Qed.

Lemma makeLocalDB_app dd cfg image :
  (makeLocalDB dd nn pp cfg image).2 = assign_label "service" "db" pp.
Proof. reflexivity. Qed.

Lemma makeLocalService_name s :
  om_Name (s_ObjectMeta (makeLocalService s nn pp).1) = nn_Name nn.
Proof. reflexivity. Qed.

Lemma makeLocalService_namespace s :
  om_Namespace (s_ObjectMeta (makeLocalService s nn pp).1) = nn_Namespace nn.
Proof. reflexivity. Qed.

Lemma makeLocalService_app s :
  (makeLocalService s nn pp).2 = assign_label "service" "db" pp.
Proof. reflexivity. Qed.

Lemma makeLocalPVC_name pvc :
  om_Name (pvc_ObjectMeta (makeLocalPVC pvc nn pp).1) = nn_Name nn.
Proof. reflexivity. Qed.

Lemma makeLocalPVC_namespace pvc :
  om_Namespace (pvc_ObjectMeta (makeLocalPVC pvc nn pp).1) = app_Namespace pp.
Proof. reflexivity. Qed.

Lemma makeLocalPVC_app pvc :
  (makeLocalPVC pvc nn pp).2 = assign_label "service" "db" pp.
Proof. reflexivity. Qed.
End builder_facts.

Ltac place_builders :=
  rewrite ?makeLocalDB_name, ?makeLocalDB_namespace, ?makeLocalDB_app,
    ?makeLocalService_name, ?makeLocalService_namespace, ?makeLocalService_app,
    ?makeLocalPVC_name, ?makeLocalPVC_namespace, ?makeLocalPVC_app.

#[local] Arguments makeLocalDB : simpl never.
#[local] Arguments makeLocalService : simpl never.
#[local] Arguments makeLocalPVC : simpl never.
#[local] Arguments rand_letters : simpl never.

(** ** Every run of [CreateDatabase] has one of the shapes *)

Ltac unfold_run :=
  unfold CreateDatabase, generateConfig, RandString, Updater_Apply,
    Client_Get, Client_Create, Client_Update, with_app, the_app, check, fail,
    mbind, M_bind, mret, M_ret, UpdateOrErr, round_trip, draw, set_store,
    set_app, store_key, trace, namespacedName, workload, generated.

(** Normalises the goal after a case split of the run. *)
Ltac settle :=
  cbn; place_builders; cbn;
  rewrite ?lookup_insert_ne by (intros [=]);
  repeat match goal with
    | H : ?x = _ |- context [match ?x with _ => _ end] => rewrite H
    end;
  cbn.

#[local] Arguments run_facts : simpl never.

Ltac shape :=
  first
    [ by constructor
    | by apply (apply_endpoint_failed _ _ true)
    | by apply (apply_endpoint_failed _ _ false)
    | by apply (fetch_storage_failed _ _ true)
    | by apply (fetch_storage_failed _ _ false)
    | by apply (apply_storage_failed _ _ true true)
    | by apply (apply_storage_failed _ _ true false)
    | by apply (apply_storage_failed _ _ false true)
    | by apply (apply_storage_failed _ _ false false)
    | by apply (all_applied _ _ true true)
    | by apply (all_applied _ _ true false)
    | by apply (all_applied _ _ false true)
    | by apply (all_applied _ _ false false) ].

(** Closes a leaf of the case analysis: the trace is read off the log, the
    shape is one of the constructors, the store is looked up. *)
Ltac leaf :=
  unfold run_facts, trace, namespacedName, workload, generated, store_key;
  cbn; rewrite <- ?app_assoc; cbn; rewrite ?drop_app_length;
  split_and!;
  [ shape
  | reflexivity
  | first [ by intros [=] | done ]
  | first
      [ by (rewrite ?elem_of_cons, elem_of_nil; intuition discriminate)
      | by (intros _; rewrite ?lookup_insert_ne by (intros [=]);
            apply lookup_insert_eq) ]
  | first
      [ done
      | by (intros _; eexists; split; [apply lookup_insert_eq|]) ] ].

Lemma CreateDatabase_run (db : localDbProvider) (w : World) :
  run_facts db w (CreateDatabase db w).
Proof.
  destruct w as [st faults trips rnd drawn log app].
  unfold_run. settle.
  destruct (faults trips) as [r0|] eqn:F0; settle; [leaf|].
  destruct (st !! _) as [o|] eqn:L0; settle.
  { destruct o; settle; leaf. }
  destruct (faults (S trips)) as [r1|] eqn:F1; settle; [leaf|].
  destruct (faults (S (S trips))) as [r2|] eqn:F2; settle; [leaf|].
  destruct (faults (S (S (S trips)))) as [r3|] eqn:F3;
    destruct (st !! (KService, _)) as [[d|s|p]|] eqn:L1; settle; try leaf.
  all: destruct (faults (S (S (S (S trips))))) as [r4|] eqn:F4; settle;
    [leaf|].
  all: destruct (faults (S (S (S (S (S trips)))))) as [r5|] eqn:F5;
    destruct (st !! (KPersistentVolumeClaim, _)) as [[d'|s'|p']|] eqn:L2;
    settle; leaf.
Qed.

(** ** The builders *)

Section builders.
Context (nn : NamespacedName) (pp : ClowdApp).

(** The labels every builder stamps: the owner's labels and [service=db]. *)
Let stamped : gmap string string := <["service" := "db"]> (app_Labels pp).

(** C7.  For every deployment to fill, identity, descriptor, config and
    image, [makeLocalDB] builds the same deployment on every call (a second
    call on its own outputs changes nothing, and a second call on a fresh
    deployment with the descriptor as the first call left it builds the
    same deployment), with: one replica; selector and template labels the
    owner's labels plus [service=db]; exactly one container with the given
    image, the environment variables [POSTGRESQL_USER],
    [POSTGRESQL_PASSWORD], [PGPASSWORD] from the config's username,
    password and auxiliary password and [POSTGRESQL_DATABASE] from the
    descriptor's database name; one container port, 5432, named
    [database]; a liveness probe (15s delay, 2s timeout) and a readiness
    probe (45s delay, 2s timeout) that both run the [SELECT 1] check; and
    the volume mounted at the data directory. *)
Theorem makeLocalDB_builds (dd : Deployment) (cfg : DatabaseConfig)
    (image : string) :
  let r := makeLocalDB dd nn pp cfg image in
  let spec := dd_Spec r.1 in
  let pod := tpl_Spec (ds_Template spec) in
  makeLocalDB r.1 nn r.2 cfg image = r
  ∧ (makeLocalDB dd nn r.2 cfg image).1 = r.1
  ∧ ds_Replicas spec = Some 1
  ∧ ds_Selector spec = Some stamped
  ∧ om_Labels (tpl_ObjectMeta (ds_Template spec)) = stamped
  ∧ om_Labels (dd_ObjectMeta r.1) = stamped
  ∧ ∃ c check,
      ps_Containers pod = [c]
      ∧ c_Image c = image
      ∧ c_Env c = [mkEnvVar "POSTGRESQL_USER" (cfg_Username cfg);
                   mkEnvVar "POSTGRESQL_PASSWORD" (cfg_Password cfg);
                   mkEnvVar "PGPASSWORD" (cfg_PgPass cfg);
                   mkEnvVar "POSTGRESQL_DATABASE"
                            (app_Spec_Database_Name pp)]
      ∧ c_Ports c = [mkContainerPort "database" 5432]
      ∧ c_LivenessProbe c = Some (mkProbe check 15 2)
      ∧ c_ReadinessProbe c = Some (mkProbe check 45 2)
      ∧ h_Exec_Command check
        = Some ["psql"; "-U"; "$(POSTGRESQL_USER)"; "-d";
                "$(POSTGRESQL_DATABASE)"; "-c"; "SELECT 1"]
      ∧ (∃ v, ps_Volumes pod = [v]
              ∧ c_VolumeMounts c
                = [mkVolumeMount (vol_Name v) "/var/lib/pgsql/data"]).
Proof.
  unfold makeLocalDB, GetLabels, assign_label, SetObjectMeta, stamped;
    cbn -[insert].
  rewrite !insert_insert_eq.
  split_and!; try reflexivity.
  eexists _, _. split_and!; try reflexivity.
  eexists. split; reflexivity.
Qed.

(** C8.  For every service to fill, identity and descriptor,
    [makeLocalService] builds a service with exactly one port, named
    [database], number 5432, protocol TCP, and with the owner's labels
    plus [service=db] as selector. *)
Theorem makeLocalService_builds (s : Service) :
  let r := makeLocalService s nn pp in
  ss_Ports (s_Spec r.1) = [mkServicePort "database" 5432 "TCP"]
  ∧ ss_Selector (s_Spec r.1) = stamped
  ∧ om_Labels (s_ObjectMeta r.1) = stamped.
Proof. by split_and!. Qed.

(** C9.  For every claim to fill, identity and descriptor, [makeLocalPVC]
    builds a claim whose access modes are exactly [ReadWriteOnce] and
    whose only request is 1Gi, that is 2^30 bytes, of storage; neither
    depends on the claim filled, the identity or the descriptor. *)
Theorem makeLocalPVC_builds (pvc : PersistentVolumeClaim) :
  let spec := pvc_Spec (makeLocalPVC pvc nn pp).1 in
  pvcs_AccessModes spec = [ReadWriteOnce]
  ∧ rr_Requests (pvcs_Resources spec)
    = {[ "storage" := mkQuantity 1073741824 BinarySI ]}
  ∧ ParseQuantity "1Gi" = Some (mkQuantity 1073741824 BinarySI)
  ∧ rr_Limits (pvcs_Resources spec) = ∅
  ∧ ∀ pvc' nn' pp',
      let spec' := pvc_Spec (makeLocalPVC pvc' nn' pp').1 in
      pvcs_AccessModes spec' = pvcs_AccessModes spec
      ∧ pvcs_Resources spec' = pvcs_Resources spec.
Proof. by split_and!. Qed.

(** C5, as the code has it.  Each of the three builders writes
    [service=db] into the descriptor's own label map, no copy is made:
    after the call the descriptor is the one before with [service=db]
    inserted into its labels, name, namespace and database name being
    untouched; the labels are the same as before exactly when they
    already mapped [service] to [db]. *)
Theorem builders_write_the_owner_labels (dd : Deployment)
    (cfg : DatabaseConfig) (image : string) (s : Service)
    (pvc : PersistentVolumeClaim) :
  let after := assign_label "service" "db" pp in
  (makeLocalDB dd nn pp cfg image).2 = after
  ∧ (makeLocalService s nn pp).2 = after
  ∧ (makeLocalPVC pvc nn pp).2 = after
  ∧ app_Labels after = <["service" := "db"]> (app_Labels pp)
  ∧ app_Name after = app_Name pp
  ∧ app_Namespace after = app_Namespace pp
  ∧ app_Spec_Database_Name after = app_Spec_Database_Name pp
  ∧ (app_Labels after = app_Labels pp
     ↔ app_Labels pp !! "service" = Some "db").
Proof.
  split_and!; try reflexivity.
  cbn -[insert]. split.
  - intros Heq. rewrite <- Heq. apply lookup_insert_eq.
  - apply insert_id.
Qed.
End builders.

(** C5, as stated, fails: on the app [orders], which has no labels, each
    builder leaves the descriptor with the label [service=db]. *)
Lemma builders_pollute_the_owner_labels :
  let nn := namespacedName orders in
  let cfg := generated fresh_cluster in
  app_Labels (makeLocalDB zeroDeployment nn orders cfg "postgres:13").2
    ≠ app_Labels orders
  ∧ app_Labels (makeLocalService zeroService nn orders).2 ≠ app_Labels orders
  ∧ app_Labels (makeLocalPVC zeroPersistentVolumeClaim nn orders).2
    ≠ app_Labels orders.
Proof.
  split_and!; intros Heq;
    apply (f_equal (λ labels : gmap string string, labels !! "service")) in Heq;
    vm_compute in Heq; discriminate Heq.
Qed.

(** ** The orchestration *)

(** Brings the facts of [CreateDatabase_run] for the run at hand into the
    context and splits on its shape. *)
Ltac by_shape db w :=
  let HF := fresh "HF" in
  pose proof (CreateDatabase_run db w) as HF;
  destruct (CreateDatabase db w) as [res w'];
  unfold run_facts in HF; cbn [fst snd] in *;
  destruct HF as (Hshape & Hlog & Hone & Hkept & Hclaim);
  destruct Hshape as
    [e Hne | | e | e Hne | xs e | xs e Hne | xs xp e | xs xp];
  repeat match goal with x : bool |- _ => destruct x end;
  cbn in *.

(** The config of a run is as the source writes it: three strings of 16
    letters, port 5432, the service's cluster-internal host name and the
    database name of the app. *)
Lemma generated_config (w : World) :
  let cfg := generated w in
  let app := w_app w in
  String.length (cfg_Username cfg) = 16%nat
  ∧ String.length (cfg_Password cfg) = 16%nat
  ∧ String.length (cfg_PgPass cfg) = 16%nat
  ∧ cfg_Port cfg = 5432
  ∧ cfg_Hostname cfg
    = (app_Name app +:+ "-db") +:+ "." +:+ app_Namespace app +:+ ".svc"
  ∧ cfg_Name cfg = app_Spec_Database_Name app.
Proof.
  cbn. rewrite !rand_letters_length.
  by split_and!.
Qed.

(** A provider as [NewLocalDBProvider] makes it configures no database. *)
Lemma Configure_new_provider (p : Provider) (c : AppConfig) :
  ac_Database (Configure (NewLocalDBProvider p).1 c) = None.
Proof. reflexivity. Qed.

(** C1, evaluated on the scenario of the spec.  On an empty cluster
    without faults, [CreateDatabase] for the app [orders] succeeds and the
    deployment it stores is built from the generated config (16-letter
    user, password and auxiliary password, port 5432, host
    [orders-db.prod.svc], name [orders_db]); but the provider's [Config] is
    still nil, so [Configure] assigns nil, not the generated config. *)
Theorem generated_config_is_not_configured :
  let r := CreateDatabase postgres13 fresh_cluster in
  let cfg := generated fresh_cluster in
  r.1 = Ok tt
  ∧ cfg = mkDatabaseConfig "orders-db.prod.svc" 5432 "abcdefghijklmnop"
            "qrstuvwxyzABCDEF" "GHIJKLMNOPQRSTUV" "orders_db"
  ∧ w_store r.2 !! store_key KDeployment "orders-db" "prod"
    = Some (StoredDeployment
              (makeLocalDB zeroDeployment (mkNN "orders-db" "prod") orders
                           cfg "postgres:13").1)
  ∧ db_Config postgres13 = None
  ∧ ∀ c, ac_Database (Configure postgres13 c) = None
         ∧ ac_Database (Configure postgres13 c) ≠ Some cfg.
Proof.
  split_and!; try (vm_compute; reflexivity).
  intros c. split; [reflexivity | discriminate].
Qed.

(** C2.  Whenever the fetch of the deployment at the derived identity
    succeeds and finds one, [CreateDatabase] returns the error "DB has
    already been created"; the fetch is its only call: nothing is applied,
    no random string is generated, and the cluster and the app are as
    before. *)
Theorem already_created_is_an_error (db : localDbProvider) (w : World)
    (d : Deployment) :
  let nn := namespacedName (w_app w) in
  let r := CreateDatabase db w in
  w_faults w (w_trips w) = None →
  w_store w !! store_key KDeployment (nn_Name nn) (nn_Namespace nn)
    = Some (StoredDeployment d) →
  r.1 = Err (Errorf "DB has already been created")
  ∧ trace w r.2 = [EvGet KDeployment (nn_Name nn) (nn_Namespace nn) None]
  ∧ store_ops (trace w r.2) = [(OpFetch, KDeployment)]
  ∧ rand_calls (trace w r.2) = []
  ∧ w_store r.2 = w_store w
  ∧ w_drawn r.2 = w_drawn w
  ∧ w_app r.2 = w_app w.
Proof.
  destruct w as [st faults trips rnd drawn log app].
  cbn. intros Hfault Hfound.
  unfold_run. cbn. rewrite Hfault. unfold store_key in Hfound.
  rewrite Hfound. cbn. rewrite drop_app_length. by split_and!.
Qed.

(** A second run for [orders] on the cluster the first run left. *)
Lemma second_run_is_refused :
  w_faults provisioned_cluster (w_trips provisioned_cluster) = None
  ∧ w_store provisioned_cluster !! store_key KDeployment "orders-db" "prod"
    = Some (StoredDeployment (workload postgres13 fresh_cluster))
  ∧ (CreateDatabase postgres13 provisioned_cluster).1
    = Err (Errorf "DB has already been created")
  ∧ w_store (CreateDatabase postgres13 provisioned_cluster).2
    = w_store provisioned_cluster.
Proof.
  assert (w_faults provisioned_cluster (w_trips provisioned_cluster) = None)
    as Hfault by reflexivity.
  assert (w_store provisioned_cluster !! store_key KDeployment "orders-db" "prod"
          = Some (StoredDeployment (workload postgres13 fresh_cluster)))
    as Hfound by (vm_compute; reflexivity).
  destruct (already_created_is_an_error postgres13 provisioned_cluster _
              Hfault Hfound) as (Hres & _ & _ & _ & Hstore & _).
  by split_and!.
Defined.

(** C3.  Every run starts with the fetch of the deployment at the derived
    identity.  [RandString] is called, three times and for 16 letters each,
    exactly when that fetch reports not-found, and not at all otherwise.
    If the fetch fails with another error, that error is returned, the
    fetch was the only call, and the cluster and the random source are as
    before. *)
Theorem credentials_iff_absent (db : localDbProvider) (w : World) :
  let nn := namespacedName (w_app w) in
  let r := CreateDatabase db w in
  let tr := trace w r.2 in
  ∃ err rest,
    tr = EvGet KDeployment (nn_Name nn) (nn_Namespace nn) err :: rest
    ∧ (rand_calls tr = [16; 16; 16]%nat ↔ err = Some ErrNotFound)
    ∧ (rand_calls tr = [] ↔ err ≠ Some ErrNotFound)
    ∧ ∀ e, err = Some e → e ≠ ErrNotFound →
        r.1 = Err e
        ∧ rest = []
        ∧ store_ops tr = [(OpFetch, KDeployment)]
        ∧ applies KDeployment tr = []
        ∧ w_store r.2 = w_store w
        ∧ w_drawn r.2 = w_drawn w.
Proof.
  cbn zeta. by_shape db w.
  all: eexists _, _; split; [reflexivity|].
  all: split_and!; try (split; congruence).
  all: intros e' [= <-] Hne'; try done.
  by destruct Hone as (-> & _ & ->).
Qed.

(** C4.  The round trips of every run are a beginning of the plan: fetch
    and apply of the workload, of the endpoint, of the storage, in this
    order.  No call but the last one of a run fails, and when the last one
    fails its error is what the run returns; a run that returns no error
    has made all six.  In particular, in every run in which the apply of
    the workload succeeds and the apply of the endpoint fails, the error
    of the latter is returned, the built workload is in the store, and the
    storage is neither fetched nor applied. *)
Theorem fails_fast_in_fixed_order (db : localDbProvider) (w : World) :
  let nn := namespacedName (w_app w) in
  let r := CreateDatabase db w in
  let tr := trace w r.2 in
  store_ops tr `prefix_of` plan
  ∧ Forall (λ e, failure e = None) (removelast tr)
  ∧ (∀ e err, last tr = Some e → failure e = Some err → r.1 = Err err)
  ∧ (r.1 = Ok tt → store_ops tr = plan ∧ Forall (λ e, failure e = None) tr)
  ∧ ∀ err,
      applies KDeployment tr = [None] →
      applies KService tr = [Some err] →
      r.1 = Err err
      ∧ store_ops tr = take 4 plan
      ∧ applies KPersistentVolumeClaim tr = []
      ∧ w_store r.2 !! store_key KDeployment (nn_Name nn) (nn_Namespace nn)
        = Some (StoredDeployment (workload db w)).
Proof.
  cbn zeta. by_shape db w.
  all: split_and!.
  all: try (by eexists).
  all: try (by repeat constructor).
  all: try (intros e' err' [= <-]; cbn;
      try (destruct e; try done); by intros [= <-]).
  all: try (try done; intros _; split; [done | by repeat constructor]).
  all: intros err' _ [= <-]; split_and!; try done; apply Hkept;
    by repeat constructor.
Qed.

(** The run on the cluster whose fourth round trip times out. *)
Lemma endpoint_apply_times_out :
  let r := CreateDatabase postgres13 flaky_cluster in
  r.1 = Err (ErrStore "timeout")
  ∧ store_ops (trace flaky_cluster r.2)
    = [(OpFetch, KDeployment); (OpApply, KDeployment);
       (OpFetch, KService); (OpApply, KService)]
  ∧ w_store r.2 !! store_key KDeployment "orders-db" "prod"
    = Some (StoredDeployment (workload postgres13 flaky_cluster)).
Proof.
  destruct (fails_fast_in_fixed_order postgres13 flaky_cluster)
    as (_ & _ & _ & _ & Hcase).
  destruct (Hcase (ErrStore "timeout")) as (Hres & Hops & _ & Hstore);
    [vm_compute; reflexivity | vm_compute; reflexivity |].
  by split_and!.
Defined.

(** C6.  The identity [CreateDatabase] derives from an app is the app's
    name followed by [-db], in the app's namespace: every call of every
    run addresses it.  It is a function of the app's name and namespace
    alone, and two apps get the same identity only if they agree on name
    and namespace. *)
Theorem identity_of_an_app (db : localDbProvider) (w : World) (b : ClowdApp) :
  let a := w_app w in
  namespacedName a = mkNN (app_Name a +:+ "-db") (app_Namespace a)
  ∧ Forall (λ e, addressed e = None
                 ∨ addressed e = Some (app_Name a +:+ "-db", app_Namespace a))
           (trace w (CreateDatabase db w).2)
  ∧ (namespacedName a = namespacedName b
     ↔ (app_Name a, app_Namespace a) = (app_Name b, app_Namespace b)).
Proof.
  cbn zeta. split_and!.
  - reflexivity.
  - by_shape db w;
      repeat (constructor; [by (left + right)|]); constructor.
  - unfold namespacedName. split.
    + intros [= Hname ->]. by apply append_inj_r in Hname as ->.
    + by intros [= -> ->].
Qed.

(** C10.  For every input, the deployment of [makeLocalDB] is wired by
    the name of the identity alone: its one volume, the claim that volume
    refers to, its one container and that container's one volume mount
    all carry the name of the identity, and so do the deployment itself
    and the claim that [makeLocalPVC] builds for the same identity,
    whatever was done to the descriptor in between.  The identity that
    [CreateDatabase] derives has the app's name followed by [-db] as name,
    and after a run without error the store holds, under that identity, a
    deployment and a claim, in one namespace, such that the deployment's
    volume refers to the claim by its name. *)
Theorem one_name_wires_the_workload (db : localDbProvider) (w : World)
    (nn : NamespacedName) (pp pp' : ClowdApp) (dd : Deployment)
    (cfg : DatabaseConfig) (image : string) (pvc : PersistentVolumeClaim) :
  let d := (makeLocalDB dd nn pp cfg image).1 in
  let claim := (makeLocalPVC pvc nn pp').1 in
  let pod := tpl_Spec (ds_Template (dd_Spec d)) in
  let r := CreateDatabase db w in
  let id := namespacedName (w_app w) in
  (∃ v c m,
     ps_Volumes pod = [v] ∧ ps_Containers pod = [c]
     ∧ c_VolumeMounts c = [m]
     ∧ vol_Name v = nn_Name nn
     ∧ vol_PersistentVolumeClaim_ClaimName v = Some (nn_Name nn)
     ∧ c_Name c = nn_Name nn
     ∧ vm_Name m = nn_Name nn
     ∧ vol_PersistentVolumeClaim_ClaimName v
       = Some (om_Name (pvc_ObjectMeta claim)))
  ∧ om_Name (dd_ObjectMeta d) = nn_Name nn
  ∧ om_Name (pvc_ObjectMeta claim) = nn_Name nn
  ∧ nn_Name id = app_Name (w_app w) +:+ "-db"
  ∧ (r.1 = Ok tt →
     ∃ stored_d stored_claim,
       w_store r.2 !! store_key KDeployment (nn_Name id) (nn_Namespace id)
       = Some (StoredDeployment stored_d)
       ∧ w_store r.2
           !! store_key KPersistentVolumeClaim (nn_Name id) (nn_Namespace id)
         = Some (StoredPersistentVolumeClaim stored_claim)
       ∧ (vol_PersistentVolumeClaim_ClaimName
            <$> ps_Volumes (tpl_Spec (ds_Template (dd_Spec stored_d))))
         = [Some (om_Name (pvc_ObjectMeta stored_claim))]
       ∧ om_Namespace (dd_ObjectMeta stored_d)
         = om_Namespace (pvc_ObjectMeta stored_claim)).
Proof.
  cbn zeta. split_and!; try reflexivity.
  { eexists _, _, _. by split_and!. }
  by_shape db w; try done.
  all: intros _; destruct Hclaim as (stored & Hstored & Hname & Hns); [done|].
  all: eexists _, stored; split_and!;
    [ apply Hkept; by repeat constructor | done | by rewrite Hname
    | by rewrite Hns ].
Qed.

(** ** The scenario of the spec, end to end *)

(** For [orders] in [prod] with database [orders_db] and image
    [postgres:13], the run on an empty cluster makes the six round trips
    of the plan and leaves a deployment [orders-db] whose container gets
    [POSTGRESQL_DATABASE=orders_db], a service and a 1Gi single-writer
    claim of the same name. *)
Example orders_scenario :
  let r := CreateDatabase postgres13 fresh_cluster in
  let d := workload postgres13 fresh_cluster in
  r.1 = Ok tt
  ∧ store_ops (trace fresh_cluster r.2) = plan
  ∧ rand_calls (trace fresh_cluster r.2) = [16; 16; 16]%nat
  ∧ om_Name (dd_ObjectMeta d) = "orders-db"
  ∧ (c_Env <$> ps_Containers (tpl_Spec (ds_Template (dd_Spec d))))
    = [[mkEnvVar "POSTGRESQL_USER" "abcdefghijklmnop";
        mkEnvVar "POSTGRESQL_PASSWORD" "qrstuvwxyzABCDEF";
        mkEnvVar "PGPASSWORD" "GHIJKLMNOPQRSTUV";
        mkEnvVar "POSTGRESQL_DATABASE" "orders_db"]]
  ∧ cfg_Hostname (generated fresh_cluster) = "orders-db.prod.svc"
  ∧ w_store r.2 !! store_key KDeployment "orders-db" "prod"
    = Some (StoredDeployment d)
  ∧ is_Some (w_store r.2 !! store_key KService "orders-db" "prod")
  ∧ (∃ claim,
       w_store r.2 !! store_key KPersistentVolumeClaim "orders-db" "prod"
       = Some (StoredPersistentVolumeClaim claim)
       ∧ pvcs_AccessModes (pvc_Spec claim) = [ReadWriteOnce]
       ∧ rr_Requests (pvcs_Resources (pvc_Spec claim)) !! "storage"
         = Some (mkQuantity (2 ^ 30) BinarySI))
  ∧ app_Labels (w_app r.2) = {[ "service" := "db" ]}.
Proof.
  split_and!; try (vm_compute; reflexivity).
  - vm_compute. eexists. reflexivity.
  - eexists. split_and!; vm_compute; reflexivity.
Qed.

(** On a cluster that cannot be reached the run ends at its first call. *)
Example unreachable_scenario :
  let r := CreateDatabase postgres13 unreachable_cluster in
  r.1 = Err (ErrStore "connection refused")
  ∧ store_ops (trace unreachable_cluster r.2) = [(OpFetch, KDeployment)]
  ∧ rand_calls (trace unreachable_cluster r.2) = []
  ∧ w_store r.2 = ∅.
Proof. split_and!; vm_compute; reflexivity. Qed.

(** ** What a run leaves behind *)

Lemma assign_label_twice (k v : string) (pp : ClowdApp) :
  assign_label k v (assign_label k v pp) = assign_label k v pp.
Proof. unfold assign_label; cbn. by rewrite insert_insert_eq. Qed.

#[local] Arguments run_effects : simpl never.

(** Closes a leaf of the case analysis for [run_effects]. *)
Ltac effects_leaf :=
  unfold run_effects, trace, store_after, endpoint, storage, found_service,
    found_claim, labelled, namespacedName, workload, generated, store_key;
  cbn; rewrite <- ?app_assoc; cbn; rewrite ?drop_app_length; cbn;
  rewrite ?assign_label_twice;
  repeat match goal with
    | H : ?x = _ |- context [match ?x with _ => _ end] => rewrite H
    end;
  split_and!; first [ reflexivity | by repeat constructor ].

Lemma CreateDatabase_effects (db : localDbProvider) (w : World) :
  run_effects db w (CreateDatabase db w).
Proof.
  destruct w as [st faults trips rnd drawn log app].
  unfold_run. settle.
  destruct (faults trips) as [r0|] eqn:F0; settle; [effects_leaf|].
  destruct (st !! _) as [o|] eqn:L0; settle.
  { destruct o; settle; effects_leaf. }
  destruct (faults (S trips)) as [r1|] eqn:F1; settle; [effects_leaf|].
  destruct (faults (S (S trips))) as [r2|] eqn:F2; settle; [effects_leaf|].
  destruct (faults (S (S (S trips)))) as [r3|] eqn:F3;
    destruct (st !! (KService, _)) as [[d|s|p]|] eqn:L1; settle;
    try effects_leaf.
  all: destruct (faults (S (S (S (S trips))))) as [r4|] eqn:F4; settle;
    [effects_leaf|].
  all: destruct (faults (S (S (S (S (S trips)))))) as [r5|] eqn:F5;
    destruct (st !! (KPersistentVolumeClaim, _)) as [[d'|s'|p']|] eqn:L2;
    settle; effects_leaf.
Qed.

#[local] Arguments workload : simpl never.
#[local] Arguments endpoint : simpl never.
#[local] Arguments storage : simpl never.
#[local] Arguments labelled : simpl never.

(** Brings the facts of [CreateDatabase_run] and [CreateDatabase_effects]
    for the run at hand into the context and splits on its shape. *)
Ltac by_run db w :=
  let HF := fresh "HF" in
  let HE := fresh "HE" in
  pose proof (CreateDatabase_run db w) as HF;
  pose proof (CreateDatabase_effects db w) as HE;
  destruct (CreateDatabase db w) as [res w'];
  unfold run_facts in HF; unfold run_effects in HE; cbn [fst snd] in *;
  destruct HF as (Hshape & Hlog & Hone & Hkept & Hclaim);
  destruct HE as (Hstore & Happ & Hfaults & Hrand & Hconf);
  destruct Hshape as
    [e Hne | | e | e Hne | xs e | xs e Hne | xs xp e | xs xp];
  repeat match goal with x : bool |- _ => destruct x end;
  cbn in *.

(** The store a run leaves, entry by entry. *)
Lemma store_after_lookup (db : localDbProvider) (w : World) (tr : list Event)
    (key : Kind * (string * string)) :
  let nn := namespacedName (w_app w) in
  store_after db w tr !! key
  = if decide (key = store_key key.1 (nn_Name nn) (nn_Namespace nn))
    then if succeeded key.1 tr then Some (built db w key.1)
         else w_store w !! key
    else w_store w !! key.
Proof.
  cbn zeta. unfold store_after, store_key.
  destruct (succeeded KDeployment tr) eqn:HD,
    (succeeded KService tr) eqn:HS,
    (succeeded KPersistentVolumeClaim tr) eqn:HP.
  all: destruct key as [[] [ns n]]; cbn [fst];
    rewrite ?lookup_insert_ne by (intros [=]);
    rewrite ?lookup_insert, ?HD, ?HS, ?HP;
    repeat case_decide; simplify_eq/=; done.
Qed.

(** A run that finds the deployment stops there: the whole run, as one
    equation. *)
Lemma CreateDatabase_found (db : localDbProvider) (w : World) (d : Deployment) :
  let nn := namespacedName (w_app w) in
  w_faults w (w_trips w) = None →
  w_store w !! store_key KDeployment (nn_Name nn) (nn_Namespace nn)
    = Some (StoredDeployment d) →
  CreateDatabase db w
  = (Err (Errorf "DB has already been created"),
     round_trip (EvGet KDeployment (nn_Name nn) (nn_Namespace nn) None) w).
Proof.
  destruct w as [st faults trips rnd drawn log app].
  cbn. intros Hfault Hfound.
  unfold_run. cbn. rewrite Hfault. unfold store_key in Hfound.
  by rewrite Hfound.
Qed.


(** Under the keys of the derived identity: the built object where the
    apply succeeded, the old entry elsewhere. *)
Lemma applied_or_untouched_entries (db : localDbProvider) (w : World) (k : Kind) :
  let nn := namespacedName (w_app w) in
  let r := CreateDatabase db w in
  w_store r.2 !! store_key k (nn_Name nn) (nn_Namespace nn)
  = (if succeeded k (trace w r.2) then Some (built db w k)
     else w_store w !! store_key k (nn_Name nn) (nn_Namespace nn)).
Proof.
  cbn zeta. destruct (CreateDatabase_effects db w) as (-> & _).
  rewrite store_after_lookup. cbn. by rewrite decide_True.
Qed.

(** X1.  The store after a run differs from the store before at most
    under the three keys of the derived identity, and nothing that was
    stored is gone. *)
Theorem other_resources_are_left_alone (db : localDbProvider) (w : World) :
  let nn := namespacedName (w_app w) in
  let r := CreateDatabase db w in
  (∀ key,
     (∀ k, key ≠ store_key k (nn_Name nn) (nn_Namespace nn)) →
     w_store r.2 !! key = w_store w !! key)
  ∧ (∀ key, is_Some (w_store w !! key) → is_Some (w_store r.2 !! key)).
Proof.
  cbn zeta. destruct (CreateDatabase_effects db w) as (-> & _).
  split; intros key Hkey; rewrite store_after_lookup; cbn zeta.
  - case_decide as Heq; [|done]. by destruct (Hkey key.1).
  - repeat case_match; eauto.
Qed.

(** X2.  Under each of the three keys of the derived identity the store
    after a run holds the object the run built when the one apply of that
    kind returned nil, and what it held before otherwise: a failed apply,
    or one that was not reached, changes nothing.  A service and a claim
    that were there are updated in place: the service keeps its cluster
    IP, the claim its volume name. *)
Theorem applied_or_untouched (db : localDbProvider) (w : World) (k : Kind) :
  let nn := namespacedName (w_app w) in
  let r := CreateDatabase db w in
  w_store r.2 !! store_key k (nn_Name nn) (nn_Namespace nn)
  = (if succeeded k (trace w r.2) then Some (built db w k)
     else w_store w !! store_key k (nn_Name nn) (nn_Namespace nn))
  ∧ ss_ClusterIP (s_Spec (endpoint w)) = ss_ClusterIP (s_Spec (found_service w))
  ∧ pvcs_VolumeName (pvc_Spec (storage w))
    = pvcs_VolumeName (pvc_Spec (found_claim w)).
Proof.
  cbn zeta. split_and!; try reflexivity.
  apply applied_or_untouched_entries.
Qed.

(** X3.  A run changes the ClowdApp exactly when its first fetch reports
    not-found, and then by adding [service=db] to its labels, also when
    the run fails afterwards; name, namespace and database name, and with
    them the derived identity, are never changed. *)
Theorem app_after_a_run (db : localDbProvider) (w : World) :
  let nn := namespacedName (w_app w) in
  let r := CreateDatabase db w in
  (∃ err rest,
     trace w r.2 = EvGet KDeployment (nn_Name nn) (nn_Namespace nn) err :: rest
     ∧ (err = Some ErrNotFound →
        w_app r.2 = assign_label "service" "db" (w_app w))
     ∧ (err ≠ Some ErrNotFound → w_app r.2 = w_app w))
  ∧ app_Name (w_app r.2) = app_Name (w_app w)
  ∧ app_Namespace (w_app r.2) = app_Namespace (w_app w)
  ∧ app_Spec_Database_Name (w_app r.2) = app_Spec_Database_Name (w_app w)
  ∧ namespacedName (w_app r.2) = namespacedName (w_app w).
Proof.
  cbn zeta. by_run db w; rewrite Happ; unfold labelled.
  all: split_and!; try reflexivity.
  all: eexists _, _; split_and!; try reflexivity.
  all: first [ by intros [= ->] | by intros [] | done ].
Qed.

(** The run on the cluster whose fourth round trip times out fails, and
    leaves [service=db] on the app. *)
Example failed_run_labels_the_app :
  let r := CreateDatabase postgres13 flaky_cluster in
  r.1 = Err (ErrStore "timeout")
  ∧ app_Labels (w_app r.2) = {[ "service" := "db" ]}.
Proof. split; vm_compute; reflexivity. Qed.



(** X5.  When none of the next six round trips fails, the store is
    consistent and there is no deployment under the derived identity,
    the run returns no error after the six round trips of the plan, and
    leaves the deployment, the service and the claim it built under the
    identity, whether or not a service or a claim was there before. *)
Theorem provisions_when_nothing_fails (db : localDbProvider) (w : World) :
  let nn := namespacedName (w_app w) in
  let key k := store_key k (nn_Name nn) (nn_Namespace nn) in
  let r := CreateDatabase db w in
  (∀ i, (i < 6)%nat → w_faults w (i + w_trips w)%nat = None) →
  store_consistent (w_store w) →
  w_store w !! key KDeployment = None →
  r.1 = Ok tt
  ∧ store_ops (trace w r.2) = plan
  ∧ w_store r.2
    = <[key KPersistentVolumeClaim := StoredPersistentVolumeClaim (storage w)]>
        (<[key KService := StoredService (endpoint w)]>
           (<[key KDeployment := StoredDeployment (workload db w)]>
              (w_store w)))
  ∧ w_app r.2 = assign_label "service" "db" (w_app w).
Proof.
  cbn zeta. intros Hfaults Hst Habsent.
  assert (∀ o, w_store w !! store_key KService
                 (nn_Name (namespacedName (w_app w)))
                 (nn_Namespace (namespacedName (w_app w))) = Some o →
               ∃ s, o = StoredService s) as HS.
  { intros o Ho. apply Hst in Ho. destruct o; try done; eauto. }
  assert (∀ o, w_store w !! store_key KPersistentVolumeClaim
                 (nn_Name (namespacedName (w_app w)))
                 (nn_Namespace (namespacedName (w_app w))) = Some o →
               ∃ p, o = StoredPersistentVolumeClaim p) as HP.
  { intros o Ho. apply Hst in Ho. destruct o; try done; eauto. }
  destruct w as [st faults trips rnd drawn log app].
  pose proof (Hfaults 0%nat ltac:(lia)) as F0.
  pose proof (Hfaults 1%nat ltac:(lia)) as F1.
  pose proof (Hfaults 2%nat ltac:(lia)) as F2.
  pose proof (Hfaults 3%nat ltac:(lia)) as F3.
  pose proof (Hfaults 4%nat ltac:(lia)) as F4.
  pose proof (Hfaults 5%nat ltac:(lia)) as F5.
  clear Hfaults Hst.
  unfold endpoint, storage, found_service, found_claim, labelled.
  unfold store_key, namespacedName in *. cbn in *.
  unfold_run. do 5 settle.
  destruct (st !! (KService, _)) as [o|] eqn:L1;
    [destruct (HS o eq_refl) as [s ->]|]; do 3 settle.
  all: destruct (st !! (KPersistentVolumeClaim, _)) as [o'|] eqn:L2;
    [destruct (HP o' eq_refl) as [p ->]|]; do 2 settle.
  all: rewrite <- ?app_assoc; cbn; rewrite ?drop_app_length;
    rewrite ?assign_label_twice; by split_and!.
Qed.

(** The cluster that already has a service and a claim: both are updated
    in place, the service keeps its cluster IP and the claim its volume. *)
Lemma adopted_cluster_is_provisioned :
  let r := CreateDatabase postgres13 adopted_cluster in
  (∀ i, (i < 6)%nat →
        w_faults adopted_cluster (i + w_trips adopted_cluster)%nat = None)
  ∧ store_consistent (w_store adopted_cluster)
  ∧ w_store adopted_cluster !! store_key KDeployment "orders-db" "prod" = None
  ∧ r.1 = Ok tt
  ∧ w_store r.2 !! store_key KService "orders-db" "prod"
    = Some (StoredService (endpoint adopted_cluster))
  ∧ ss_ClusterIP (s_Spec (endpoint adopted_cluster)) = "10.0.0.7"
  ∧ pvcs_VolumeName (pvc_Spec (storage adopted_cluster)) = "pv-0001".
Proof.
  assert (∀ i, (i < 6)%nat →
               w_faults adopted_cluster (i + w_trips adopted_cluster)%nat = None)
    as Hfaults by reflexivity.
  assert (store_consistent (w_store adopted_cluster)) as Hst.
  { apply map_Forall_insert_2; [reflexivity|].
    apply map_Forall_insert_2; [reflexivity|].
    apply map_Forall_empty. }
  assert (w_store adopted_cluster !! store_key KDeployment "orders-db" "prod"
          = None) as Habsent by (vm_compute; reflexivity).
  destruct (provisions_when_nothing_fails postgres13 adopted_cluster
              Hfaults Hst Habsent) as (Hres & _ & Hstore & _).
  split_and!;
    [ exact Hfaults | exact Hst | exact Habsent | exact Hres
    | rewrite Hstore, lookup_insert_ne by (intros [=]);
      apply lookup_insert_eq
    | vm_compute; reflexivity
    | vm_compute; reflexivity ].
Defined.

(** X6.  Once a run has created the deployment, whether it then went on
    to the end or failed at the service or the claim, every later run for
    the app whose first fetch does not fail returns the error "DB has
    already been created" after that one fetch and leaves the store and
    the app as they are: what an earlier run did not get to is not made
    up for. *)
Theorem no_second_run_after_the_workload (db db' : localDbProvider)
    (w : World) :
  let nn := namespacedName (w_app w) in
  let r := CreateDatabase db w in
  let r' := CreateDatabase db' r.2 in
  succeeded KDeployment (trace w r.2) = true →
  w_faults r.2 (w_trips r.2) = None →
  r'.1 = Err (Errorf "DB has already been created")
  ∧ trace r.2 r'.2 = [EvGet KDeployment (nn_Name nn) (nn_Namespace nn) None]
  ∧ w_store r'.2 = w_store r.2
  ∧ w_app r'.2 = w_app r.2.
Proof.
  cbn zeta. by_run db w; intros Hcreated Hfault; try done.
  all: rewrite (CreateDatabase_found db' w' (workload db w) Hfault);
    [ rewrite Happ; unfold trace; cbn; rewrite drop_app_length; by split_and!
    | rewrite Happ; apply Hkept; by repeat constructor ].
Qed.

(** After the run that failed at the service, a second run is refused and
    the service is still missing. *)
Lemma retry_does_not_finish_the_job :
  let r := CreateDatabase postgres13 flaky_cluster in
  let r' := CreateDatabase postgres13 r.2 in
  succeeded KDeployment (trace flaky_cluster r.2) = true
  ∧ w_faults r.2 (w_trips r.2) = None
  ∧ r.1 = Err (ErrStore "timeout")
  ∧ r'.1 = Err (Errorf "DB has already been created")
  ∧ w_store r'.2 = w_store r.2
  ∧ w_store r.2 !! store_key KService "orders-db" "prod" = None.
Proof.
  cbn zeta.
  assert (succeeded KDeployment
            (trace flaky_cluster (CreateDatabase postgres13 flaky_cluster).2)
          = true) as Hcreated by (vm_compute; reflexivity).
  assert (w_faults (CreateDatabase postgres13 flaky_cluster).2
            (w_trips (CreateDatabase postgres13 flaky_cluster).2) = None)
    as Hfault by (vm_compute; reflexivity).
  destruct (no_second_run_after_the_workload postgres13 postgres13
              flaky_cluster Hcreated Hfault) as (Hres & _ & Hstore & _).
  split_and!;
    [ exact Hcreated | exact Hfault | vm_compute; reflexivity | exact Hres
    | exact Hstore | vm_compute; reflexivity ].
Defined.

(** X7.  In every run the deployment is created and never updated; a
    service or a claim is updated only after its fetch found it and
    created only after its fetch reported not-found; and no create meets
    an object that is there, no update one that is not. *)
Theorem apply_follows_the_fetch (db : localDbProvider) (w : World) :
  let tr := trace w (CreateDatabase db w).2 in
  (∀ n ns err, EvUpdate KDeployment n ns err ∉ tr)
  ∧ (∀ k n ns err, EvUpdate k n ns err ∈ tr → EvGet k n ns None ∈ tr)
  ∧ (∀ k n ns err,
       EvCreate k n ns err ∈ tr → EvGet k n ns (Some ErrNotFound) ∈ tr)
  ∧ Forall (λ e, self_conflict e = false) tr.
Proof.
  cbn zeta. by_run db w.
  all: split_and!; [ | | | done ].
  all: intros * Hin;
    repeat (apply elem_of_cons in Hin as [Hin|Hin];
            [ try discriminate Hin; injection Hin as -> -> -> ->;
              by repeat constructor |]);
    by apply elem_of_nil in Hin.
Qed.

(** ** How the three objects fit together *)

(** X8.  The service that [makeLocalService] builds selects the pods of
    the deployment that [makeLocalDB] builds for the same app, whether it
    is built before the deployment or, as in [CreateDatabase], after it:
    its selector is the label set of the pod template, which is also the
    deployment's own selector and holds [service=db], and its port has
    name and number of the container's port.  The deployment, the service
    and the claim all carry that label set. *)
Theorem endpoint_reaches_workload (nn : NamespacedName) (pp : ClowdApp)
    (dd : Deployment) (cfg : DatabaseConfig) (image : string) (s : Service)
    (pvc : PersistentVolumeClaim) :
  let r := makeLocalDB dd nn pp cfg image in
  let tpl := ds_Template (dd_Spec r.1) in
  let pods := om_Labels (tpl_ObjectMeta tpl) in
  let svc := (makeLocalService s nn r.2).1 in
  let svc_before := (makeLocalService s nn pp).1 in
  let claim := (makeLocalPVC pvc nn (makeLocalService s nn r.2).2).1 in
  ds_Selector (dd_Spec r.1) = Some pods
  ∧ ss_Selector (s_Spec svc) = pods
  ∧ ss_Selector (s_Spec svc_before) = pods
  ∧ pods !! "service" = Some "db"
  ∧ ((λ p, (sp_Name p, sp_Port p)) <$> ss_Ports (s_Spec svc))
    = ((λ p, (cp_Name p, cp_ContainerPort p))
         <$> (ps_Containers (tpl_Spec tpl) ≫= c_Ports))
  ∧ om_Labels (dd_ObjectMeta r.1) = pods
  ∧ om_Labels (s_ObjectMeta svc) = pods
  ∧ om_Labels (pvc_ObjectMeta claim) = pods.
Proof.
  unfold makeLocalDB, makeLocalService, makeLocalPVC, GetLabels,
    SetObjectMeta, assign_label; cbn -[insert].
  rewrite ?insert_insert_eq, lookup_insert_eq. by split_and!.
Qed.

(** X9.  Building the service or the claim again, on what the first call
    built and with the app as the first call left it, changes neither the
    object nor the app. *)
Theorem rebuilding_changes_nothing (nn : NamespacedName) (pp : ClowdApp)
    (s : Service) (pvc : PersistentVolumeClaim) :
  let rs := makeLocalService s nn pp in
  let rp := makeLocalPVC pvc nn pp in
  makeLocalService rs.1 nn rs.2 = rs
  ∧ makeLocalPVC rp.1 nn rp.2 = rp
  ∧ makeLocalService rs.1 nn rp.2 = rs
  ∧ makeLocalPVC rp.1 nn rs.2 = rp.
Proof.
  unfold makeLocalService, makeLocalPVC, GetLabels, SetObjectMeta,
    assign_label; cbn -[insert].
  rewrite !insert_insert_eq. by split_and!.
Qed.

(** X10.  After a run without error the generated config points at what
    the run stored: its host name is the name of the stored service, a
    dot, the service's namespace and [.svc]; its port is the port of that
    service; and the container of the stored deployment gets the config's
    user, password and auxiliary password and its database name in its
    environment. *)
Theorem config_points_at_the_endpoint (db : localDbProvider) (w : World) :
  let nn := namespacedName (w_app w) in
  let r := CreateDatabase db w in
  let cfg := generated w in
  r.1 = Ok tt →
  ∃ svc d,
    w_store r.2 !! store_key KService (nn_Name nn) (nn_Namespace nn)
    = Some (StoredService svc)
    ∧ w_store r.2 !! store_key KDeployment (nn_Name nn) (nn_Namespace nn)
      = Some (StoredDeployment d)
    ∧ cfg_Hostname cfg
      = om_Name (s_ObjectMeta svc) +:+ "."
          +:+ om_Namespace (s_ObjectMeta svc) +:+ ".svc"
    ∧ (sp_Port <$> ss_Ports (s_Spec svc)) = [cfg_Port cfg]
    ∧ (ps_Containers (tpl_Spec (ds_Template (dd_Spec d))) ≫= c_Env)
      = [mkEnvVar "POSTGRESQL_USER" (cfg_Username cfg);
         mkEnvVar "POSTGRESQL_PASSWORD" (cfg_Password cfg);
         mkEnvVar "PGPASSWORD" (cfg_PgPass cfg);
         mkEnvVar "POSTGRESQL_DATABASE" (cfg_Name cfg)].
Proof.
  cbn zeta. intros Hok.
  pose proof (applied_or_untouched_entries db w) as Hentry.
  revert Hok Hentry. by_run db w; intros Hok Hentry; try done.
  all: exists (endpoint w), (workload db w).
  all: rewrite (Hentry KService), (Hentry KDeployment); by split_and!.
Qed.

(** The run for [orders] on the empty cluster: the host name is
    [orders-db.prod.svc], after the stored service. *)
Lemma orders_config_points_at_the_endpoint :
  let w := fresh_cluster in
  let r := CreateDatabase postgres13 w in
  r.1 = Ok tt
  ∧ cfg_Hostname (generated w) = "orders-db.prod.svc"
  ∧ ∃ svc d,
      w_store r.2 !! store_key KService "orders-db" "prod"
      = Some (StoredService svc)
      ∧ w_store r.2 !! store_key KDeployment "orders-db" "prod"
        = Some (StoredDeployment d)
      ∧ cfg_Hostname (generated w)
        = om_Name (s_ObjectMeta svc) +:+ "."
            +:+ om_Namespace (s_ObjectMeta svc) +:+ ".svc"
      ∧ (sp_Port <$> ss_Ports (s_Spec svc)) = [cfg_Port (generated w)]
      ∧ (ps_Containers (tpl_Spec (ds_Template (dd_Spec d))) ≫= c_Env)
        = [mkEnvVar "POSTGRESQL_USER" (cfg_Username (generated w));
           mkEnvVar "POSTGRESQL_PASSWORD" (cfg_Password (generated w));
           mkEnvVar "PGPASSWORD" (cfg_PgPass (generated w));
           mkEnvVar "POSTGRESQL_DATABASE" (cfg_Name (generated w))].
Proof.
  cbn zeta.
  assert ((CreateDatabase postgres13 fresh_cluster).1 = Ok tt) as Hok
    by (vm_compute; reflexivity).
  split_and!;
    [ exact Hok | vm_compute; reflexivity
    | exact (config_points_at_the_endpoint postgres13 fresh_cluster Hok) ].
Defined.
